(** * MultiversalAppBootstrap: the page bootstrap component

    A shallow embedding of [src/components/MultiversalAppBootstrap.tsx].

    The component is a function from a props object to a React element (or
    [null]).  On its way it talks to collaborators that live outside the
    file: the Sentry breadcrumb sink, the console, the i18next/Locize
    resolver, the theme resolver, the iframe helpers and the cookies-based
    session manager.  Every such call is recorded in a trace, and every
    collaborator that returns a value may throw instead. *)

From Stdlib Require Import ZArith.
From stdpp Require Import base option list strings gmap fin_maps.

Local Open Scope string_scope.

(** ** JavaScript values *)

(** Numbers are modelled as integers (the only number the component looks at
    is an HTTP status code).  [VFun] stands for a function or a class
    instance that the component only passes along (a React component, the
    router, an i18next instance, a cookies manager); it is identified by a
    name.  [VObj] is a plain object: a finite map from own enumerable keys to
    values, where a key bound to [VUndef] is distinct from an absent key. *)
#[warnings="-register-all"]
Inductive val : Type :=
  | VUndef
  | VNull
  | VBool (b : bool)
  | VNum (n : Z)
  | VStr (s : string)
  | VFun (name : string)
  | VObj (fields : gmap string val).

Abbreviation object := (gmap string val).

(** What a call to a collaborator, or the component itself, ends in: a value,
    or a thrown JavaScript value. *)
Inductive result (A : Type) : Type :=
  | Ok (a : A)
  | Throw (e : val).
Arguments Ok {A} a.
Arguments Throw {A} e.

(** The error raised by a property read on [undefined] or [null]. *)
Definition TypeError : val := VStr "TypeError".

(** JavaScript truthiness ([ToBoolean]). *)
Definition truthy (v : val) : bool :=
  match v with
  | VUndef | VNull => false
  | VBool b => b
  | VNum n => negb (n =? 0)%Z
  | VStr s => match s with EmptyString => false | String _ _ => true end
  | VFun _ | VObj _ => true
  end.

(** [v === 404]. *)
Definition is_404 (v : val) : bool :=
  match v with
  | VNum n => (n =? 404)%Z
  | _ => false
  end.

(** [o.k] on a props object: [undefined] when the key is absent. *)
Definition prop (o : object) (k : string) : val := default VUndef (o !! k).

(** [v.k] on an arbitrary value.  Reading a property of [undefined] or [null]
    throws; a primitive or a function has none of the properties the
    component reads, so the read gives [undefined]. *)
Definition get (v : val) (k : string) : result val :=
  match v with
  | VUndef | VNull => Throw TypeError
  | VObj o => Ok (prop o k)
  | VBool _ | VNum _ | VStr _ | VFun _ => Ok VUndef
  end.

(** The own enumerable properties copied by [...v].  The component spreads
    [pageProps] only after the readiness gate has passed, which makes it an
    object (see [gate_passes_object]). *)
Definition own_props (v : val) : object :=
  match v with
  | VObj o => o
  | _ => ∅
  end.

(** ** Object literals *)

(** One item of an object literal: [...o] or [k: v] (also the shorthand
    [k]). *)
Inductive literal_part : Type :=
  | Spread (o : object)
  | Field (k : string) (v : val).

Definition add_part (acc : object) (p : literal_part) : object :=
  match p with
  | Spread o => o ∪ acc
  | Field k v => <[k := v]> acc
  end.

(** [{ p1, p2, ... }]: the parts are applied left to right, a later part
    overwriting the keys of the earlier ones. *)
Definition object_literal (parts : list literal_part) : object :=
  fold_left add_part parts ∅.

(** ** Effects *)

Inductive severity : Type := Debug | Info | Warning | Error.

(** The observable calls the component makes, each with its arguments. *)
Inductive event : Type :=
  | Sentry_addBreadcrumb (category message : string) (level : severity)
  | console_debug (label : string) (arg : val)
  | console_info (message : string)
  | call_i18nextLocize (lang defaultLocales : val)
  | call_initCustomerTheme (customer : val)
  | call_isRunningInIframe
  | call_getIframeReferrer
  | new_UniversalCookiesManager
  | call_getUserData (cookiesManager : val).

(** A computation: the calls it made, in order, and how it ended. *)
Definition M (A : Type) : Type := list event * result A.

Definition ret {A} (a : A) : M A := ([], Ok a).

Definition bind {A B} (m : M A) (k : A → M B) : M B :=
  match m with
  | (t, Ok a) => let '(t', r) := k a in ((t ++ t')%list, r)
  | (t, Throw e) => (t, Throw e)
  end.

Notation "x <~ m ;; k" := (bind m (λ x, k))
  (at level 100, m at next level, right associativity).
Notation "m ;;; k" := (bind m (λ _, k))
  (at level 100, right associativity).

(** A call that returns nothing and cannot fail (a log line). *)
Definition emit (ev : event) : M unit := ([ev], Ok tt).

(** A call to a collaborator: it is recorded, then returns or throws. *)
Definition call {A} (ev : event) (r : result A) : M A := ([ev], r).

(** A step that makes no call (a property read). *)
Definition lift {A} (r : result A) : M A := ([], r).

(** ** Collaborators *)

(** The environment of one render: whether it runs in a browser, and what
    each imported helper does when called. *)
Record Collaborators : Type := {
  isBrowser : bool;
  i18nextLocize : val → val → result val;
  initCustomerTheme : val → result val;
  isRunningInIframe : result val;
  getIframeReferrer : result val;
  UniversalCookiesManager : result val;
  getUserData : val → result val;
}.

(** ** The component *)

Definition fileLabel : string := "components/MultiversalAppBootstrap".

(** What the component returns: [null] or one of its two delegates with the
    props handed to it. *)
Inductive element : Type :=
  | null
  | BrowserPageBootstrap (props : object)
  | PageBootstrap (props : object).

(** [const { Component, err, pageProps, router, ...rest } = props]. *)
Definition rest_of (props : object) : object :=
  delete "router" (delete "pageProps" (delete "err" (delete "Component" props))).

(** [pageProps.isReadyToRender || pageProps.statusCode === 404]; the second
    read happens only when the first value is falsy. *)
Definition readiness_gate (pageProps : val) : result bool :=
  match get pageProps "isReadyToRender" with
  | Throw e => Throw e
  | Ok ready =>
      if truthy ready then Ok true
      else match get pageProps "statusCode" with
           | Throw e => Throw e
           | Ok statusCode => Ok (is_404 statusCode)
           end
  end.

Definition pageBootstrapProps
    (pageProps Component err i18nextInstance router theme : val) (rest : object) : object :=
  object_literal
    [ Spread (own_props pageProps);
      Field "Component" Component;
      Field "err" err;
      Field "i18nextInstance" i18nextInstance;
      Field "router" router;
      Field "theme" theme;
      Spread rest ].

Definition browserPageBootstrapProps
    (pageBootstrapProps : object) (isInIframe iframeReferrer cookiesManager userSession : val)
    : object :=
  object_literal
    [ Spread pageBootstrapProps;
      Field "isInIframe" isInIframe;
      Field "iframeReferrer" iframeReferrer;
      Field "cookiesManager" cookiesManager;
      Field "userSession" userSession ].

Definition MultiversalAppBootstrap (env : Collaborators) (props : object) : M element :=
  let Component := prop props "Component" in
  let err := prop props "err" in
  let pageProps := prop props "pageProps" in
  let router := prop props "router" in
  let rest := rest_of props in
  emit (Sentry_addBreadcrumb fileLabel ("Rendering " ++ fileLabel) Debug) ;;;
  (if isBrowser env
   then emit (console_debug "MultiversalAppBootstrap.props" (VObj props))
   else ret tt) ;;;
  ready <~ lift (readiness_gate pageProps) ;;
  if ready : bool then
    emit (console_info "MultiversalAppBootstrap - App is ready, rendering...") ;;;
    customer <~ lift (get pageProps "customer") ;;
    defaultLocales <~ lift (get pageProps "defaultLocales") ;;
    lang <~ lift (get pageProps "lang") ;;
    i18nextInstance <~ call (call_i18nextLocize lang defaultLocales)
                            (i18nextLocize env lang defaultLocales) ;;
    theme <~ call (call_initCustomerTheme customer) (initCustomerTheme env customer) ;;
    let pageBootstrapProps :=
      pageBootstrapProps pageProps Component err i18nextInstance router theme rest in
    if isBrowser env then
      isInIframe <~ call call_isRunningInIframe (isRunningInIframe env) ;;
      iframeReferrer <~ call call_getIframeReferrer (getIframeReferrer env) ;;
      cookiesManager <~ call new_UniversalCookiesManager (UniversalCookiesManager env) ;;
      userSession <~ call (call_getUserData cookiesManager) (getUserData env cookiesManager) ;;
      let browserPageBootstrapProps :=
        browserPageBootstrapProps pageBootstrapProps
          isInIframe iframeReferrer cookiesManager userSession in
      ret (BrowserPageBootstrap browserPageBootstrapProps)
    else
      ret (PageBootstrap pageBootstrapProps)
  else
    emit (console_info
            "MultiversalAppBootstrap - App is not ready yet, waiting for isReadyToRender") ;;;
    ret null.

(** ** Vocabulary of the properties *)

Local Open Scope list_scope.

(** The readiness condition in the words of the specification: the
    readiness flag is true, or the status code equals 404. *)
Definition passes_readiness_gate (pageProps : object) : Prop :=
  truthy (prop pageProps "isReadyToRender") = true ∨ prop pageProps "statusCode" = VNum 404.

(** The props handed to a delegate, if the element is one. *)
Definition delegated_props (el : element) : option object :=
  match el with
  | null => None
  | BrowserPageBootstrap d | PageBootstrap d => Some d
  end.

Definition is_breadcrumb (ev : event) : bool :=
  match ev with Sentry_addBreadcrumb _ _ _ => true | _ => false end.

Definition is_console (ev : event) : bool :=
  match ev with console_debug _ _ | console_info _ => true | _ => false end.

Definition is_console_debug (ev : event) : bool :=
  match ev with console_debug _ _ => true | _ => false end.

Definition is_console_info (ev : event) : bool :=
  match ev with console_info _ => true | _ => false end.

(** Calls to the session manager and to the iframe helpers. *)
Definition is_session_or_iframe_call (ev : event) : bool :=
  match ev with
  | call_isRunningInIframe | call_getIframeReferrer
  | new_UniversalCookiesManager | call_getUserData _ => true
  | _ => false
  end.

(** Calls to any collaborator other than the breadcrumb sink and the
    console. *)
Definition is_collaborator_call (ev : event) : bool :=
  negb (is_breadcrumb ev || is_console ev).

Definition count (p : event → bool) (t : list event) : nat :=
  length (List.filter p t).

(** The four keys the browser branch adds. *)
Definition browser_keys : list string :=
  ["isInIframe"; "iframeReferrer"; "cookiesManager"; "userSession"].

(** The calls made before the readiness gate is looked at. *)
Definition prologue (env : Collaborators) (props : object) : list event :=
  Sentry_addBreadcrumb fileLabel "Rendering components/MultiversalAppBootstrap" Debug
  :: (if isBrowser env
      then [console_debug "MultiversalAppBootstrap.props" (VObj props)]
      else []).

Definition ready_message : string :=
  "MultiversalAppBootstrap - App is ready, rendering...".

Definition not_ready_message : string :=
  "MultiversalAppBootstrap - App is not ready yet, waiting for isReadyToRender".

(** The calls both branches start with, for page props [pp]. *)
Definition resolver_calls (env : Collaborators) (props pp : object) : list event :=
  prologue env props ++
  [console_info ready_message;
   call_i18nextLocize (prop pp "lang") (prop pp "defaultLocales")].

(** The calls of a browser render that reaches the session retrieval. *)
Definition browser_calls (env : Collaborators) (props pp : object) (cookiesManager : val)
    : list event :=
  resolver_calls env props pp ++
  [call_initCustomerTheme (prop pp "customer"); call_isRunningInIframe;
   call_getIframeReferrer; new_UniversalCookiesManager; call_getUserData cookiesManager].

(** The merged props of a render of [props] whose page props are [pp], given
    what the two resolvers returned. *)
Definition merged (props pp : object) (i18nextInstance theme : val) : object :=
  pageBootstrapProps (VObj pp) (prop props "Component") (prop props "err")
    i18nextInstance (prop props "router") theme (rest_of props).

(** Some collaborator call of a render with page props [pp] throws [e]. *)
Definition thrown_by_collaborator (env : Collaborators) (pp : object) (e : val) : Prop :=
  i18nextLocize env (prop pp "lang") (prop pp "defaultLocales") = Throw e
  ∨ initCustomerTheme env (prop pp "customer") = Throw e
  ∨ isBrowser env = true
    ∧ (isRunningInIframe env = Throw e
       ∨ getIframeReferrer env = Throw e
       ∨ UniversalCookiesManager env = Throw e
       ∨ ∃ cookiesManager,
           UniversalCookiesManager env = Ok cookiesManager
           ∧ getUserData env cookiesManager = Throw e).

(** Two environments with the same browser flag whose collaborators behave
    alike. *)
Record same_behaviour (env1 env2 : Collaborators) : Prop := {
  same_isBrowser : isBrowser env1 = isBrowser env2;
  same_i18nextLocize :
    ∀ lang defaultLocales,
      i18nextLocize env1 lang defaultLocales = i18nextLocize env2 lang defaultLocales;
  same_initCustomerTheme :
    ∀ customer, initCustomerTheme env1 customer = initCustomerTheme env2 customer;
  same_isRunningInIframe : isRunningInIframe env1 = isRunningInIframe env2;
  same_getIframeReferrer : getIframeReferrer env1 = getIframeReferrer env2;
  same_UniversalCookiesManager :
    UniversalCookiesManager env1 = UniversalCookiesManager env2;
  same_getUserData :
    ∀ cookiesManager,
      getUserData env1 cookiesManager = getUserData env2 cookiesManager;
}.

(** The keys the destructuring takes out of the incoming props. *)
Definition destructured_keys : list string :=
  ["Component"; "err"; "pageProps"; "router"].

(** The keys the merged props literal names between its two spreads. *)
Definition named_keys : list string :=
  ["Component"; "err"; "i18nextInstance"; "router"; "theme"].

(** ** Sample inputs *)

Module Sample.

Definition i18n_of (lang defaultLocales : val) : val :=
  VObj {[ "language" := lang; "resources" := defaultLocales ]}.

Definition theme_of (customer : val) : val :=
  VObj {[ "primaryColor" := VStr "blue"; "customer" := customer ]}.

Definition session : val := VObj {[ "id" := VStr "user-1" ]}.

(** Collaborators that all return. *)
Definition env (browser : bool) : Collaborators :=
  {| isBrowser := browser;
     i18nextLocize := λ lang defaultLocales, Ok (i18n_of lang defaultLocales);
     initCustomerTheme := λ customer, Ok (theme_of customer);
     isRunningInIframe := Ok (VBool false);
     getIframeReferrer := Ok VNull;
     UniversalCookiesManager := Ok (VFun "cookiesManager");
     getUserData := λ _, Ok session |}.

(** Collaborators whose theme resolver throws. *)
Definition env_theme_fails (browser : bool) : Collaborators :=
  {| isBrowser := browser;
     i18nextLocize := λ lang defaultLocales, Ok (i18n_of lang defaultLocales);
     initCustomerTheme := λ _, Throw (VStr "no theme");
     isRunningInIframe := Ok (VBool false);
     getIframeReferrer := Ok VNull;
     UniversalCookiesManager := Ok (VFun "cookiesManager");
     getUserData := λ _, Ok session |}.

(** Collaborators written differently from [env] that behave alike. *)
Definition env_alike (browser : bool) : Collaborators :=
  {| isBrowser := browser;
     i18nextLocize := λ lang defaultLocales,
       Ok (VObj (<["language" := lang]> {[ "resources" := defaultLocales ]}));
     initCustomerTheme := λ customer,
       match customer with
       | VUndef => Ok (theme_of VUndef)
       | _ => Ok (theme_of customer)
       end;
     isRunningInIframe := Ok (VBool false);
     getIframeReferrer := Ok VNull;
     UniversalCookiesManager := Ok (VFun "cookiesManager");
     getUserData := λ cookiesManager,
       match cookiesManager with
       | VFun _ => Ok session
       | _ => Ok session
       end |}.

Definition pageProps_ready : object :=
  {[ "isReadyToRender" := VBool true;
     "customer" := VStr "customer1";
     "defaultLocales" := VObj ∅;
     "lang" := VStr "fr" ]}.

Definition pageProps_waiting : object :=
  {[ "isReadyToRender" := VBool false; "statusCode" := VNum 200 ]}.

(** Ready props with the passthrough field [__N_SSG]. *)
Definition props_ready : object :=
  {[ "Component" := VFun "Page";
     "pageProps" := VObj pageProps_ready;
     "router" := VFun "router";
     "__N_SSG" := VBool true ]}.

Definition props_waiting : object :=
  {[ "Component" := VFun "Page";
     "pageProps" := VObj pageProps_waiting;
     "router" := VFun "router" ]}.

(** Ready props with a passthrough field named [theme]. *)
Definition props_with_theme : object :=
  <["theme" := VStr "passthrough theme"]> props_ready.

(** Ready props with a passthrough field named [isInIframe]. *)
Definition props_with_isInIframe : object :=
  <["isInIframe" := VStr "passthrough flag"]> props_ready.

End Sample.

(** ** Vocabulary of the call order and of the key sets *)

(** What the collaborator behind a recorded call answers; the breadcrumb
    sink and the console answer nothing. *)
Definition result_of (env : Collaborators) (ev : event) : option (result val) :=
  match ev with
  | call_i18nextLocize lang defaultLocales => Some (i18nextLocize env lang defaultLocales)
  | call_initCustomerTheme customer => Some (initCustomerTheme env customer)
  | call_isRunningInIframe => Some (isRunningInIframe env)
  | call_getIframeReferrer => Some (getIframeReferrer env)
  | new_UniversalCookiesManager => Some (UniversalCookiesManager env)
  | call_getUserData cookiesManager => Some (getUserData env cookiesManager)
  | Sentry_addBreadcrumb _ _ _ | console_debug _ _ | console_info _ => None
  end.

(** The recorded call did not throw. *)
Definition returned (env : Collaborators) (ev : event) : Prop :=
  match result_of env ev with
  | Some (Throw _) => False
  | Some (Ok _) | None => True
  end.

(** The collaborator calls of a complete browser render, in source order. *)
Definition collaborator_sequence (pp : object) (cookiesManager : val) : list event :=
  [ call_i18nextLocize (prop pp "lang") (prop pp "defaultLocales");
    call_initCustomerTheme (prop pp "customer");
    call_isRunningInIframe;
    call_getIframeReferrer;
    new_UniversalCookiesManager;
    call_getUserData cookiesManager ].

(** The same sequence up to the construction of the cookies manager. *)
Definition calls_up_to_construction (pp : object) : list event :=
  [ call_i18nextLocize (prop pp "lang") (prop pp "defaultLocales");
    call_initCustomerTheme (prop pp "customer");
    call_isRunningInIframe;
    call_getIframeReferrer;
    new_UniversalCookiesManager ].

(** The collaborator calls among the calls of a render. *)
Definition collaborator_calls (t : list event) : list event :=
  List.filter is_collaborator_call t.

Definition key_set (keys : list string) : gset string := list_to_set keys.

(** ** Sample inputs for the edge cases *)

Module Edge.

(** Props without [pageProps]. *)
Definition props_without_pageProps : object :=
  {[ "Component" := VFun "Page"; "router" := VFun "router" ]}.

(** Page props of an error page: no readiness flag, no locale, no
    customer. *)
Definition pageProps_404 : object := {[ "statusCode" := VNum 404 ]}.

Definition props_404 : object :=
  {[ "Component" := VFun "ErrorPage"; "pageProps" := VObj pageProps_404 ]}.

(** Collaborators whose cookies manager cannot be constructed. *)
Definition env_no_cookies : Collaborators :=
  {| isBrowser := true;
     i18nextLocize := λ lang defaultLocales, Ok (Sample.i18n_of lang defaultLocales);
     initCustomerTheme := λ customer, Ok (Sample.theme_of customer);
     isRunningInIframe := Ok (VBool true);
     getIframeReferrer := Ok (VStr "https://host.example");
     UniversalCookiesManager := Throw (VStr "cookies disabled");
     getUserData := λ _, Ok Sample.session |}.

End Edge.

(** ** Basic facts about the model *)

Lemma is_404_spec v : is_404 v = true ↔ v = VNum 404.
Proof.
  destruct v; simpl; try (split; discriminate).
  rewrite Z.eqb_eq. split; [intros -> | intros [= ->]]; reflexivity.
Qed.

Lemma is_404_false v : v ≠ VNum 404 → is_404 v = false.
Proof.
  intros Hv. destruct (is_404 v) eqn:E; [|reflexivity].
  apply is_404_spec in E. contradiction.
Qed.

Lemma readiness_gate_object pp :
  readiness_gate (VObj pp) =
    Ok (truthy (prop pp "isReadyToRender") || is_404 (prop pp "statusCode")).
Proof. unfold readiness_gate; simpl. by destruct (truthy _). Qed.

(** The gate lets a value through only if it is an object. *)
Lemma gate_passes_object v : readiness_gate v = Ok true → ∃ pp, v = VObj pp.
Proof. destruct v; try discriminate. eauto. Qed.

(** The code's gate is the specification's condition. *)
Lemma gate_passes_iff pp :
  readiness_gate (VObj pp) = Ok true ↔ passes_readiness_gate pp.
Proof.
  rewrite readiness_gate_object. unfold passes_readiness_gate.
  rewrite <- is_404_spec. split.
  - intros [= H]. by apply orb_true_iff.
  - intros H. f_equal. by apply orb_true_iff.
Qed.

Lemma prop_lookup (o : object) k v : o !! k = Some v → prop o k = v.
Proof. unfold prop. by intros ->. Qed.

Lemma lookup_rest_of props k :
  rest_of props !! k =
    if decide (k = "router") then None
    else if decide (k = "pageProps") then None
    else if decide (k = "err") then None
    else if decide (k = "Component") then None
    else props !! k.
Proof.
  unfold rest_of. rewrite !lookup_delete.
  repeat case_decide; congruence.
Qed.

Lemma lookup_pageBootstrapProps pageProps Component err i18nextInstance router theme rest k :
  pageBootstrapProps pageProps Component err i18nextInstance router theme rest !! k =
    match rest !! k with
    | Some v => Some v
    | None =>
        if decide (k = "theme") then Some theme
        else if decide (k = "router") then Some router
        else if decide (k = "i18nextInstance") then Some i18nextInstance
        else if decide (k = "err") then Some err
        else if decide (k = "Component") then Some Component
        else own_props pageProps !! k
    end.
Proof.
  unfold pageBootstrapProps, object_literal; simpl.
  rewrite lookup_union. destruct (rest !! k) as [v|]; simpl.
  - by rewrite union_Some_l.
  - rewrite (left_id_L None _), map_union_empty.
    rewrite !lookup_insert. repeat case_decide; congruence.
Qed.

Lemma lookup_browserPageBootstrapProps
    pageBootstrapProps isInIframe iframeReferrer cookiesManager userSession k :
  browserPageBootstrapProps pageBootstrapProps
    isInIframe iframeReferrer cookiesManager userSession !! k =
    if decide (k = "userSession") then Some userSession
    else if decide (k = "cookiesManager") then Some cookiesManager
    else if decide (k = "iframeReferrer") then Some iframeReferrer
    else if decide (k = "isInIframe") then Some isInIframe
    else pageBootstrapProps !! k.
Proof.
  unfold browserPageBootstrapProps, object_literal; simpl.
  rewrite map_union_empty, !lookup_insert. repeat case_decide; congruence.
Qed.

(** ** The runs of the component, path by path *)

Ltac rewrite_collaborators :=
  repeat match goal with
         | H : isBrowser _ = _ |- _ => rewrite H
         | H : i18nextLocize _ _ _ = _ |- _ => rewrite H
         | H : initCustomerTheme _ _ = _ |- _ => rewrite H
         | H : isRunningInIframe _ = _ |- _ => rewrite H
         | H : getIframeReferrer _ = _ |- _ => rewrite H
         | H : UniversalCookiesManager _ = _ |- _ => rewrite H
         | H : getUserData _ _ = _ |- _ => rewrite H
         end.

(** Unfolds the component and follows the path the hypotheses select. *)
Ltac run_component :=
  unfold MultiversalAppBootstrap, prologue, bind, emit, call, lift, ret;
  repeat match goal with
         | H : prop _ "pageProps" = _ |- _ => rewrite H
         | H : readiness_gate _ = _ |- _ => rewrite H
         end;
  try rewrite readiness_gate_object;
  repeat match goal with
         | H : passes_readiness_gate ?pp |- _ =>
             apply gate_passes_iff in H; rewrite readiness_gate_object in H;
             injection H as H; rewrite H
         end;
  cbn [get];
  rewrite_collaborators;
  cbn [app].

Section Runs.

Variable env : Collaborators.
Variable props : object.

(** Reading the gate throws: only the prologue has happened. *)
Lemma run_gate_throws e :
  readiness_gate (prop props "pageProps") = Throw e →
  MultiversalAppBootstrap env props = (prologue env props, Throw e).
Proof. intros Hg. run_component. by destruct (isBrowser env). Qed.

(** The gate is closed. *)
Lemma run_not_ready :
  readiness_gate (prop props "pageProps") = Ok false →
  MultiversalAppBootstrap env props =
    (prologue env props ++ [console_info not_ready_message], Ok null).
Proof. intros Hg. run_component. by destruct (isBrowser env). Qed.

(** From here on the gate is open, on page props [pp]. *)
Variable pp : object.
Hypothesis Hpp : prop props "pageProps" = VObj pp.
Hypothesis Hgate : passes_readiness_gate pp.

Lemma run_i18n_throws e :
  i18nextLocize env (prop pp "lang") (prop pp "defaultLocales") = Throw e →
  MultiversalAppBootstrap env props = (resolver_calls env props pp, Throw e).
Proof.
  intros Hi. pose proof Hgate as Hg. unfold resolver_calls.
  run_component. by destruct (isBrowser env).
Qed.

Variable i18nextInstance : val.
Hypothesis Hi18n :
  i18nextLocize env (prop pp "lang") (prop pp "defaultLocales") = Ok i18nextInstance.

Lemma run_theme_throws e :
  initCustomerTheme env (prop pp "customer") = Throw e →
  MultiversalAppBootstrap env props =
    (resolver_calls env props pp ++ [call_initCustomerTheme (prop pp "customer")],
     Throw e).
Proof.
  intros Ht. pose proof Hgate as Hg. unfold resolver_calls.
  run_component. by destruct (isBrowser env).
Qed.

Variable theme : val.
Hypothesis Htheme : initCustomerTheme env (prop pp "customer") = Ok theme.

Lemma run_universal :
  isBrowser env = false →
  MultiversalAppBootstrap env props =
    (resolver_calls env props pp ++ [call_initCustomerTheme (prop pp "customer")],
     Ok (PageBootstrap (merged props pp i18nextInstance theme))).
Proof.
  intros Hb. pose proof Hgate as Hg. unfold resolver_calls.
  run_component. reflexivity.
Qed.

Hypothesis Hbrowser : isBrowser env = true.

Lemma run_isRunningInIframe_throws e :
  isRunningInIframe env = Throw e →
  MultiversalAppBootstrap env props =
    (resolver_calls env props pp ++
     [call_initCustomerTheme (prop pp "customer"); call_isRunningInIframe],
     Throw e).
Proof.
  intros H1. pose proof Hgate as Hg. unfold resolver_calls.
  run_component. reflexivity.
Qed.

Variable isInIframe : val.
Hypothesis HisInIframe : isRunningInIframe env = Ok isInIframe.

Lemma run_getIframeReferrer_throws e :
  getIframeReferrer env = Throw e →
  MultiversalAppBootstrap env props =
    (resolver_calls env props pp ++
     [call_initCustomerTheme (prop pp "customer"); call_isRunningInIframe;
      call_getIframeReferrer],
     Throw e).
Proof.
  intros H1. pose proof Hgate as Hg. unfold resolver_calls.
  run_component. reflexivity.
Qed.

Variable iframeReferrer : val.
Hypothesis HiframeReferrer : getIframeReferrer env = Ok iframeReferrer.

Lemma run_UniversalCookiesManager_throws e :
  UniversalCookiesManager env = Throw e →
  MultiversalAppBootstrap env props =
    (resolver_calls env props pp ++
     [call_initCustomerTheme (prop pp "customer"); call_isRunningInIframe;
      call_getIframeReferrer; new_UniversalCookiesManager],
     Throw e).
Proof.
  intros H1. pose proof Hgate as Hg. unfold resolver_calls.
  run_component. reflexivity.
Qed.

Variable cookiesManager : val.
Hypothesis HcookiesManager : UniversalCookiesManager env = Ok cookiesManager.

Lemma run_getUserData_throws e :
  getUserData env cookiesManager = Throw e →
  MultiversalAppBootstrap env props =
    (browser_calls env props pp cookiesManager, Throw e).
Proof.
  intros H1. pose proof Hgate as Hg. unfold browser_calls, resolver_calls.
  run_component. reflexivity.
Qed.

Variable userSession : val.
Hypothesis HuserSession : getUserData env cookiesManager = Ok userSession.

Lemma run_browser :
  MultiversalAppBootstrap env props =
    (browser_calls env props pp cookiesManager,
     Ok (BrowserPageBootstrap
           (browserPageBootstrapProps (merged props pp i18nextInstance theme)
              isInIframe iframeReferrer cookiesManager userSession))).
Proof.
  pose proof Hgate as Hg. unfold browser_calls, resolver_calls.
  run_component. reflexivity.
Qed.

End Runs.

(** Splits a render whose gate is open into its eight paths, rewriting the
    run of the component in each. *)
Ltac run_cases env props pp Hpp Hgate :=
  let i := fresh "i18nextInstance" in
  let t := fresh "theme" in
  let f := fresh "isInIframe" in
  let r := fresh "iframeReferrer" in
  let c := fresh "cookiesManager" in
  let u := fresh "userSession" in
  let e := fresh "e" in
  let Hi := fresh "Hi18n" in
  let Ht := fresh "Htheme" in
  let Hb := fresh "Hbrowser" in
  let Hf := fresh "HisInIframe" in
  let Hr := fresh "HiframeReferrer" in
  let Hc := fresh "HcookiesManager" in
  let Hu := fresh "HuserSession" in
  destruct (i18nextLocize env (prop pp "lang") (prop pp "defaultLocales"))
    as [i|e] eqn:Hi;
  [ destruct (initCustomerTheme env (prop pp "customer")) as [t|e] eqn:Ht;
    [ destruct (isBrowser env) eqn:Hb;
      [ destruct (isRunningInIframe env) as [f|e] eqn:Hf;
        [ destruct (getIframeReferrer env) as [r|e] eqn:Hr;
          [ destruct (UniversalCookiesManager env) as [c|e] eqn:Hc;
            [ destruct (getUserData env c) as [u|e] eqn:Hu;
              [ rewrite (run_browser env props pp Hpp Hgate i Hi t Ht Hb f Hf r Hr c Hc u Hu)
              | rewrite (run_getUserData_throws env props pp Hpp Hgate i Hi t Ht Hb
                           f Hf r Hr c Hc e Hu) ]
            | rewrite (run_UniversalCookiesManager_throws env props pp Hpp Hgate i Hi t Ht Hb
                         f Hf r Hr e Hc) ]
          | rewrite (run_getIframeReferrer_throws env props pp Hpp Hgate i Hi t Ht Hb
                       f Hf e Hr) ]
        | rewrite (run_isRunningInIframe_throws env props pp Hpp Hgate i Hi t Ht Hb e Hf) ]
      | rewrite (run_universal env props pp Hpp Hgate i Hi t Ht Hb) ]
    | rewrite (run_theme_throws env props pp Hpp Hgate i Hi e Ht) ]
  | rewrite (run_i18n_throws env props pp Hpp Hgate e Hi) ].

(** A delegate is rendered only through an open gate. *)
Lemma delegate_gate_open env props el d :
  (MultiversalAppBootstrap env props).2 = Ok el →
  delegated_props el = Some d →
  ∃ pp, prop props "pageProps" = VObj pp ∧ passes_readiness_gate pp.
Proof.
  intros Hrun Hd.
  destruct (readiness_gate (prop props "pageProps")) as [[]|e] eqn:Hg.
  - destruct (gate_passes_object _ Hg) as [pp Hpp].
    exists pp. split; [done|]. apply gate_passes_iff. by rewrite <- Hpp.
  - rewrite (run_not_ready _ _ Hg) in Hrun. simpl in Hrun.
    injection Hrun as <-. discriminate.
  - rewrite (run_gate_throws _ _ _ Hg) in Hrun. discriminate.
Qed.

Lemma gate_closed pp :
  truthy (prop pp "isReadyToRender") = false →
  prop pp "statusCode" ≠ VNum 404 →
  readiness_gate (VObj pp) = Ok false.
Proof.
  intros Hready Hstatus. rewrite readiness_gate_object, Hready.
  by rewrite (is_404_false _ Hstatus).
Qed.

(** ** The readiness gate (C1, C8) *)

(** C1.  When [pageProps.isReadyToRender] is false (falsy) and
    [pageProps.statusCode] is not 404, the component returns [null], which
    is neither delegate.  Conversely, whenever the component returns a
    delegate, [pageProps] is an object whose readiness flag is true (truthy;
    [true] itself when the flag is a boolean) or whose status code is 404. *)
Theorem not_ready_renders_nothing env props :
  (∀ pp,
     props !! "pageProps" = Some (VObj pp) →
     truthy (prop pp "isReadyToRender") = false →
     prop pp "statusCode" ≠ VNum 404 →
     (MultiversalAppBootstrap env props).2 = Ok null
     ∧ delegated_props null = None)
  ∧ (∀ el d,
       (MultiversalAppBootstrap env props).2 = Ok el →
       delegated_props el = Some d →
       ∃ pp, props !! "pageProps" = Some (VObj pp)
             ∧ passes_readiness_gate pp
             ∧ (∀ b, prop pp "isReadyToRender" = VBool b →
                     b = true ∨ prop pp "statusCode" = VNum 404)).
Proof.
  split.
  - intros pp Hpp Hready Hstatus. split; [|reflexivity].
    rewrite run_not_ready; [reflexivity|].
    rewrite (prop_lookup _ _ _ Hpp). by apply gate_closed.
  - intros el d Hrun Hd.
    destruct (delegate_gate_open _ _ _ _ Hrun Hd) as (pp & Hpp & Hgate).
    exists pp. split; [|split; [done|]].
    + unfold prop in Hpp. destruct (props !! "pageProps"); simpl in Hpp; congruence.
    + intros b Hb. destruct Hgate as [Ht|Hs]; [left|by right].
      by rewrite Hb in Ht.
Qed.

Lemma not_ready_renders_nothing_witness :
  Sample.props_waiting !! "pageProps" = Some (VObj Sample.pageProps_waiting)
  ∧ truthy (prop Sample.pageProps_waiting "isReadyToRender") = false
  ∧ prop Sample.pageProps_waiting "statusCode" ≠ VNum 404
  ∧ (MultiversalAppBootstrap (Sample.env true) Sample.props_waiting).2 = Ok null.
Proof.
  assert (H1 : Sample.props_waiting !! "pageProps" = Some (VObj Sample.pageProps_waiting))
    by reflexivity.
  assert (H2 : truthy (prop Sample.pageProps_waiting "isReadyToRender") = false)
    by reflexivity.
  assert (H3 : prop Sample.pageProps_waiting "statusCode" ≠ VNum 404)
    by (vm_compute; discriminate).
  split; [exact H1|]. split; [exact H2|]. split; [exact H3|].
  exact (proj1 (proj1 (not_ready_renders_nothing (Sample.env true) Sample.props_waiting)
                  Sample.pageProps_waiting H1 H2 H3)).
Defined.

(** C8.  When the gate is closed, the component calls no collaborator: the
    only calls are the breadcrumb, the props dump on the console when in a
    browser, and the waiting message. *)
Theorem not_ready_calls_no_collaborator env props pp :
  props !! "pageProps" = Some (VObj pp) →
  truthy (prop pp "isReadyToRender") = false →
  prop pp "statusCode" ≠ VNum 404 →
  (MultiversalAppBootstrap env props).1 =
    prologue env props ++ [console_info not_ready_message]
  ∧ Forall (λ ev, is_collaborator_call ev = false) (MultiversalAppBootstrap env props).1.
Proof.
  intros Hpp Hready Hstatus.
  rewrite run_not_ready.
  2:{ rewrite (prop_lookup _ _ _ Hpp). by apply gate_closed. }
  split; [reflexivity|].
  unfold prologue. destruct (isBrowser env); simpl; repeat constructor.
Qed.

Lemma not_ready_calls_no_collaborator_witness :
  Sample.props_waiting !! "pageProps" = Some (VObj Sample.pageProps_waiting)
  ∧ truthy (prop Sample.pageProps_waiting "isReadyToRender") = false
  ∧ prop Sample.pageProps_waiting "statusCode" ≠ VNum 404
  ∧ Forall (λ ev, is_collaborator_call ev = false)
      (MultiversalAppBootstrap (Sample.env false) Sample.props_waiting).1.
Proof.
  assert (H1 : Sample.props_waiting !! "pageProps" = Some (VObj Sample.pageProps_waiting))
    by reflexivity.
  assert (H2 : truthy (prop Sample.pageProps_waiting "isReadyToRender") = false)
    by reflexivity.
  assert (H3 : prop Sample.pageProps_waiting "statusCode" ≠ VNum 404)
    by (vm_compute; discriminate).
  split; [exact H1|]. split; [exact H2|]. split; [exact H3|].
  exact (proj2 (not_ready_calls_no_collaborator (Sample.env false) Sample.props_waiting
                  Sample.pageProps_waiting H1 H2 H3)).
Defined.

(** ** The two branches (C3, C4) *)

(** C3.  Outside a browser, with the gate open, the component makes no call
    to the session manager or to the iframe helpers and never returns the
    browser delegate; once the two resolvers have returned, it returns
    [PageBootstrap] with the merged props. *)
Theorem universal_branch env props pp :
  props !! "pageProps" = Some (VObj pp) →
  passes_readiness_gate pp →
  isBrowser env = false →
  Forall (λ ev, is_session_or_iframe_call ev = false) (MultiversalAppBootstrap env props).1
  ∧ (∀ d, (MultiversalAppBootstrap env props).2 ≠ Ok (BrowserPageBootstrap d))
  ∧ (∀ i18nextInstance theme,
       i18nextLocize env (prop pp "lang") (prop pp "defaultLocales") = Ok i18nextInstance →
       initCustomerTheme env (prop pp "customer") = Ok theme →
       (MultiversalAppBootstrap env props).2 =
         Ok (PageBootstrap (merged props pp i18nextInstance theme))).
Proof.
  intros Hpp%prop_lookup Hgate Hb.
  destruct (i18nextLocize env (prop pp "lang") (prop pp "defaultLocales"))
    as [i|e] eqn:Hi.
  - destruct (initCustomerTheme env (prop pp "customer")) as [t|e] eqn:Ht.
    + rewrite (run_universal env props pp Hpp Hgate i Hi t Ht Hb).
      unfold resolver_calls, prologue. rewrite Hb. simpl.
      split; [repeat constructor|]. split; [discriminate|].
      by intros ?? [= <-] [= <-].
    + rewrite (run_theme_throws env props pp Hpp Hgate i Hi e Ht).
      unfold resolver_calls, prologue. rewrite Hb. simpl.
      split; [repeat constructor|]. split; discriminate.
  - rewrite (run_i18n_throws env props pp Hpp Hgate e Hi).
    unfold resolver_calls, prologue. rewrite Hb. simpl.
    split; [repeat constructor|]. split; discriminate.
Qed.

Lemma universal_branch_witness :
  Sample.props_ready !! "pageProps" = Some (VObj Sample.pageProps_ready)
  ∧ passes_readiness_gate Sample.pageProps_ready
  ∧ isBrowser (Sample.env false) = false
  ∧ (MultiversalAppBootstrap (Sample.env false) Sample.props_ready).2 =
      Ok (PageBootstrap
            (merged Sample.props_ready Sample.pageProps_ready
               (Sample.i18n_of (VStr "fr") (VObj ∅))
               (Sample.theme_of (VStr "customer1")))).
Proof.
  assert (H1 : Sample.props_ready !! "pageProps" = Some (VObj Sample.pageProps_ready))
    by reflexivity.
  assert (H2 : passes_readiness_gate Sample.pageProps_ready) by (left; reflexivity).
  assert (H3 : isBrowser (Sample.env false) = false) by reflexivity.
  split; [exact H1|]. split; [exact H2|]. split; [exact H3|].
  apply (proj2 (proj2 (universal_branch (Sample.env false) Sample.props_ready
                         Sample.pageProps_ready H1 H2 H3))); reflexivity.
Defined.

(** C4.  In a browser, with the gate open and every collaborator returning,
    the component asks the iframe helpers for the iframe flag and the
    referrer, constructs the cookies manager, reads the user session from
    it, and returns [BrowserPageBootstrap] with props that carry these four
    values under [isInIframe], [iframeReferrer], [cookiesManager] and
    [userSession], on top of the merged props. *)
Theorem browser_branch env props pp
    i18nextInstance theme isInIframe iframeReferrer cookiesManager userSession :
  props !! "pageProps" = Some (VObj pp) →
  passes_readiness_gate pp →
  isBrowser env = true →
  i18nextLocize env (prop pp "lang") (prop pp "defaultLocales") = Ok i18nextInstance →
  initCustomerTheme env (prop pp "customer") = Ok theme →
  isRunningInIframe env = Ok isInIframe →
  getIframeReferrer env = Ok iframeReferrer →
  UniversalCookiesManager env = Ok cookiesManager →
  getUserData env cookiesManager = Ok userSession →
  ∃ d,
    (MultiversalAppBootstrap env props).2 = Ok (BrowserPageBootstrap d)
    ∧ d = browserPageBootstrapProps (merged props pp i18nextInstance theme)
            isInIframe iframeReferrer cookiesManager userSession
    ∧ d !! "cookiesManager" = Some cookiesManager
    ∧ d !! "userSession" = Some userSession
    ∧ d !! "isInIframe" = Some isInIframe
    ∧ d !! "iframeReferrer" = Some iframeReferrer
    ∧ call_isRunningInIframe ∈ (MultiversalAppBootstrap env props).1
    ∧ call_getIframeReferrer ∈ (MultiversalAppBootstrap env props).1
    ∧ new_UniversalCookiesManager ∈ (MultiversalAppBootstrap env props).1
    ∧ call_getUserData cookiesManager ∈ (MultiversalAppBootstrap env props).1.
Proof.
  intros Hpp%prop_lookup Hgate Hb Hi Ht Hf Hr Hc Hu.
  rewrite (run_browser env props pp Hpp Hgate _ Hi _ Ht Hb _ Hf _ Hr _ Hc _ Hu).
  eexists. split; [reflexivity|]. split; [reflexivity|].
  rewrite !lookup_browserPageBootstrapProps.
  repeat (split; [reflexivity|]).
  unfold browser_calls. cbn [fst].
  repeat split; apply elem_of_app; right; set_solver.
Qed.

Lemma browser_branch_witness :
  ∃ d,
    (MultiversalAppBootstrap (Sample.env true) Sample.props_ready).2 =
      Ok (BrowserPageBootstrap d)
    ∧ d !! "cookiesManager" = Some (VFun "cookiesManager")
    ∧ d !! "userSession" = Some Sample.session
    ∧ d !! "isInIframe" = Some (VBool false)
    ∧ d !! "iframeReferrer" = Some VNull.
Proof.
  destruct (browser_branch (Sample.env true) Sample.props_ready Sample.pageProps_ready
              (Sample.i18n_of (VStr "fr") (VObj ∅)) (Sample.theme_of (VStr "customer1"))
              (VBool false) VNull (VFun "cookiesManager") Sample.session)
    as (d & Hrun & _ & Hc & Hu & Hf & Hr & _);
    [reflexivity | left; reflexivity | reflexivity..|].
  exists d. repeat split; assumption.
Defined.

(** ** What the delegated props hold (C2, C5, C9) *)

(** Every incoming key but [pageProps] keeps its value in the merged
    props. *)
Lemma lookup_merged_incoming props pp i18nextInstance theme k v :
  props !! k = Some v →
  k ≠ "pageProps" →
  merged props pp i18nextInstance theme !! k = Some v.
Proof.
  intros Hk Hne. unfold merged.
  rewrite lookup_pageBootstrapProps, lookup_rest_of.
  unfold prop.
  repeat case_decide; subst; rewrite ?Hk; try done.
Qed.

Lemma lookup_merged_i18nextInstance props pp i18nextInstance theme :
  merged props pp i18nextInstance theme !! "i18nextInstance" =
    Some (default i18nextInstance (props !! "i18nextInstance")).
Proof.
  unfold merged. rewrite lookup_pageBootstrapProps, lookup_rest_of.
  repeat case_decide; try done. by destruct (props !! "i18nextInstance").
Qed.

Lemma lookup_merged_theme props pp i18nextInstance theme :
  merged props pp i18nextInstance theme !! "theme" =
    Some (default theme (props !! "theme")).
Proof.
  unfold merged. rewrite lookup_pageBootstrapProps, lookup_rest_of.
  repeat case_decide; try done. by destruct (props !! "theme").
Qed.

(** Settles whether a literal key is one of [browser_keys]. *)
Ltac solve_browser_key :=
  unfold browser_keys; rewrite !not_elem_of_cons; repeat split;
  solve [discriminate | apply not_elem_of_nil].

Lemma lookup_browser_other pageBootstrapProps f r c u k :
  k ∉ browser_keys →
  browserPageBootstrapProps pageBootstrapProps f r c u !! k = pageBootstrapProps !! k.
Proof.
  intros Hk. rewrite lookup_browserPageBootstrapProps.
  unfold browser_keys in Hk. rewrite !not_elem_of_cons in Hk.
  destruct Hk as (? & ? & ? & ? & _).
  repeat case_decide; congruence.
Qed.

(** A failed render with the gate open failed in a collaborator. *)
Lemma throw_from_collaborator env props pp e :
  prop props "pageProps" = VObj pp →
  passes_readiness_gate pp →
  (MultiversalAppBootstrap env props).2 = Throw e →
  thrown_by_collaborator env pp e.
Proof.
  intros Hpp Hgate. unfold thrown_by_collaborator.
  run_cases env props pp Hpp Hgate; simpl; try discriminate; intros [= <-]; eauto 10.
Qed.

(** C2 as the code has it.  With [pageProps.isReadyToRender] true the
    component calls the internationalization resolver with the supplied
    [lang] and [defaultLocales] and, once that has returned, the theme
    resolver with the supplied [customer].  A render that ends normally ends
    in a delegate, both resolvers have returned, and the delegated props
    hold the two results under [i18nextInstance] and [theme], unless the
    incoming props carry a passthrough field of that name: that field's
    value then stands there instead. *)
Theorem resolvers_feed_merged_props env props pp :
  props !! "pageProps" = Some (VObj pp) →
  truthy (prop pp "isReadyToRender") = true →
  call_i18nextLocize (prop pp "lang") (prop pp "defaultLocales")
    ∈ (MultiversalAppBootstrap env props).1
  ∧ (∀ i18nextInstance,
       i18nextLocize env (prop pp "lang") (prop pp "defaultLocales") = Ok i18nextInstance →
       call_initCustomerTheme (prop pp "customer") ∈ (MultiversalAppBootstrap env props).1)
  ∧ (∀ el,
       (MultiversalAppBootstrap env props).2 = Ok el →
       ∃ d i18nextInstance theme,
         delegated_props el = Some d
         ∧ i18nextLocize env (prop pp "lang") (prop pp "defaultLocales") = Ok i18nextInstance
         ∧ initCustomerTheme env (prop pp "customer") = Ok theme
         ∧ d !! "i18nextInstance" = Some (default i18nextInstance (props !! "i18nextInstance"))
         ∧ d !! "theme" = Some (default theme (props !! "theme"))).
Proof.
  intros Hpp%prop_lookup Hready.
  assert (Hgate : passes_readiness_gate pp) by (by left).
  run_cases env props pp Hpp Hgate; cbn [fst snd];
    unfold browser_calls, resolver_calls;
    (split; [set_solver|]); (split; [intros ? [= <-] || intros ? [=]; set_solver|]);
    intros el [= <-]; cbn [delegated_props].
  - do 3 eexists. split; [reflexivity|]. split; [reflexivity|]. split; [reflexivity|].
    rewrite !lookup_browser_other by solve_browser_key.
    by rewrite lookup_merged_i18nextInstance, lookup_merged_theme.
  - do 3 eexists. split; [reflexivity|]. split; [reflexivity|]. split; [reflexivity|].
    by rewrite lookup_merged_i18nextInstance, lookup_merged_theme.
Qed.

Lemma resolvers_feed_merged_props_witness :
  Sample.props_with_theme !! "pageProps" = Some (VObj Sample.pageProps_ready)
  ∧ truthy (prop Sample.pageProps_ready "isReadyToRender") = true
  ∧ call_i18nextLocize (VStr "fr") (VObj ∅)
      ∈ (MultiversalAppBootstrap (Sample.env false) Sample.props_with_theme).1.
Proof.
  assert (H1 : Sample.props_with_theme !! "pageProps" = Some (VObj Sample.pageProps_ready))
    by reflexivity.
  assert (H2 : truthy (prop Sample.pageProps_ready "isReadyToRender") = true)
    by reflexivity.
  split; [exact H1|]. split; [exact H2|].
  exact (proj1 (resolvers_feed_merged_props (Sample.env false) Sample.props_with_theme
                  Sample.pageProps_ready H1 H2)).
Defined.

(** The claim C2 fails on props that carry a passthrough field [theme]: the
    flag is true, the theme resolver returns its theme, and the delegated
    props hold the passthrough value under [theme]. *)
Lemma resolvers_feed_merged_props_counterexample :
  truthy (prop Sample.pageProps_ready "isReadyToRender") = true
  ∧ initCustomerTheme (Sample.env false) (prop Sample.pageProps_ready "customer") =
      Ok (Sample.theme_of (VStr "customer1"))
  ∧ ∃ d,
      (MultiversalAppBootstrap (Sample.env false) Sample.props_with_theme).2 =
        Ok (PageBootstrap d)
      ∧ d !! "theme" = Some (VStr "passthrough theme")
      ∧ d !! "theme" ≠ Some (Sample.theme_of (VStr "customer1")).
Proof.
  split; [reflexivity|]. split; [reflexivity|].
  eexists. split; [reflexivity|].
  assert (H : ∀ o : option val, o = Some (VStr "passthrough theme") →
              o = Some (VStr "passthrough theme")
              ∧ o ≠ Some (Sample.theme_of (VStr "customer1"))).
  { intros o ->. split; [reflexivity|discriminate]. }
  apply H. vm_compute. reflexivity.
Qed.

(** A field of [pageProps] that no named key and no key of [rest] shadows
    keeps its value in the merged props. *)
Lemma lookup_merged_pageProps_field props pp i18nextInstance theme k :
  rest_of props !! k = None →
  k ∉ named_keys →
  merged props pp i18nextInstance theme !! k = pp !! k.
Proof.
  intros Hk Hn. unfold merged. rewrite lookup_pageBootstrapProps, Hk.
  unfold named_keys in Hn. rewrite !not_elem_of_cons in Hn.
  destruct Hn as (? & ? & ? & ? & ? & _).
  repeat case_decide; first [congruence | reflexivity].
Qed.

(** C5 as the code has it.  With the gate open, a render that ends normally
    ends in a delegate whose props hold every incoming key other than
    [pageProps] (so every passthrough field, and [Component], [err] and
    [router]) with its incoming value; in the browser branch this excepts
    the keys [isInIframe], [iframeReferrer], [cookiesManager] and
    [userSession].  The incoming [pageProps] value is not delegated under
    the key [pageProps]: that key holds what the [pageProps] object itself
    holds under the name [pageProps], and is absent when it has no such
    field.  Each field of [pageProps] appears with its value in the
    delegated props unless it shares its name with a named key of the
    literal, with a key of [rest], or in the browser branch with one of the
    four browser keys. *)
Theorem incoming_fields_preserved env props pp :
  props !! "pageProps" = Some (VObj pp) →
  passes_readiness_gate pp →
  ∀ el,
    (MultiversalAppBootstrap env props).2 = Ok el →
    ∃ d,
      delegated_props el = Some d
      ∧ (∀ k v,
           props !! k = Some v →
           k ≠ "pageProps" →
           isBrowser env = false ∨ k ∉ browser_keys →
           d !! k = Some v)
      ∧ d !! "pageProps" = pp !! "pageProps"
      ∧ (∀ k v,
           pp !! k = Some v →
           k ∉ named_keys →
           rest_of props !! k = None →
           isBrowser env = false ∨ k ∉ browser_keys →
           d !! k = Some v).
Proof.
  intros Hpp%prop_lookup Hgate el.
  assert (Hnamed : "pageProps" ∉ named_keys).
  { unfold named_keys. rewrite !not_elem_of_cons.
    repeat split; solve [discriminate | apply not_elem_of_nil]. }
  assert (Hrest : rest_of props !! "pageProps" = None).
  { by rewrite lookup_rest_of. }
  run_cases env props pp Hpp Hgate; cbn [snd]; try discriminate;
    intros [= <-]; eexists; (split; [reflexivity|]).
  - split.
    { intros k v Hk Hne [|Hnb]; [discriminate|].
      rewrite lookup_browser_other by done. by apply lookup_merged_incoming. }
    split.
    { rewrite lookup_browser_other by solve_browser_key.
      by apply lookup_merged_pageProps_field. }
    intros k v Hk Hn Hr [|Hnb]; [discriminate|].
    rewrite lookup_browser_other by done.
    by rewrite lookup_merged_pageProps_field.
  - split; [intros k v Hk Hne _; by apply lookup_merged_incoming|].
    split; [by apply lookup_merged_pageProps_field|].
    intros k v Hk Hn Hr _. by rewrite lookup_merged_pageProps_field.
Qed.

Lemma incoming_fields_preserved_witness :
  Sample.props_ready !! "pageProps" = Some (VObj Sample.pageProps_ready)
  ∧ passes_readiness_gate Sample.pageProps_ready
  ∧ ∃ d,
      (MultiversalAppBootstrap (Sample.env true) Sample.props_ready).2 =
        Ok (BrowserPageBootstrap d)
      ∧ d !! "__N_SSG" = Some (VBool true)
      ∧ d !! "pageProps" = None
      ∧ d !! "lang" = Some (VStr "fr").
Proof.
  assert (H1 : Sample.props_ready !! "pageProps" = Some (VObj Sample.pageProps_ready))
    by reflexivity.
  assert (H2 : passes_readiness_gate Sample.pageProps_ready) by (left; reflexivity).
  split; [exact H1|]. split; [exact H2|].
  destruct (incoming_fields_preserved (Sample.env true) Sample.props_ready
              Sample.pageProps_ready H1 H2 _ eq_refl)
    as (d & Hd & Hframe & Hpage & Hfields).
  injection Hd as <-.
  eexists. split; [reflexivity|].
  split; [apply Hframe; [reflexivity | discriminate | right; solve_browser_key]|].
  split; [rewrite Hpage; reflexivity|].
  apply Hfields; [reflexivity | | reflexivity | right; solve_browser_key].
  unfold named_keys. rewrite !not_elem_of_cons.
  repeat split; solve [discriminate | apply not_elem_of_nil].
Defined.

(** The claim C5 fails in both of its parts.  The delegated props are not a
    superset of the incoming props: the incoming key [pageProps] is gone
    from them.  And in the browser branch a passthrough field named
    [isInIframe] does not keep its value. *)
Lemma incoming_fields_preserved_counterexample :
  (passes_readiness_gate Sample.pageProps_ready
   ∧ ∃ d,
       (MultiversalAppBootstrap (Sample.env false) Sample.props_ready).2 =
         Ok (PageBootstrap d)
       ∧ is_Some (Sample.props_ready !! "pageProps")
       ∧ d !! "pageProps" = None
       ∧ ¬ Sample.props_ready ⊆ d)
  ∧ (∃ d,
       (MultiversalAppBootstrap (Sample.env true) Sample.props_with_isInIframe).2 =
         Ok (BrowserPageBootstrap d)
       ∧ rest_of Sample.props_with_isInIframe !! "isInIframe" =
           Some (VStr "passthrough flag")
       ∧ d !! "isInIframe" = Some (VBool false)).
Proof.
  split.
  - split; [left; reflexivity|].
    eexists. split; [reflexivity|].
    assert (Hnone : ∀ d : object,
              d !! "pageProps" = None →
              is_Some (Sample.props_ready !! "pageProps")
              ∧ d !! "pageProps" = None ∧ ¬ Sample.props_ready ⊆ d).
    { intros d Hd. split; [by eexists|]. split; [exact Hd|].
      intros Hsub.
      assert (Hin : Sample.props_ready !! "pageProps" = Some (VObj Sample.pageProps_ready))
        by reflexivity.
      apply (lookup_weaken _ _ _ _ Hin) in Hsub. congruence. }
    apply Hnone. vm_compute. reflexivity.
  - eexists. split; [reflexivity|]. split; vm_compute; reflexivity.
Qed.

(** C9.  The destructuring leaves none of [Component], [err], [pageProps],
    [router] in [rest].  With the gate open, a render that ends normally
    ends in a delegate whose props are layered in the order of the literal:
    a key of [rest] holds the value [rest] gives it, also when it is named
    [i18nextInstance] or [theme]; a named key that [rest] lacks holds the
    value that was computed or destructured for it; any other key holds what
    [pageProps] gives it.  In the browser branch the four freshly computed
    values stand under [isInIframe], [iframeReferrer], [cookiesManager] and
    [userSession] whatever [rest] holds there, and the layering applies to
    every other key. *)
Theorem merge_order env props pp :
  props !! "pageProps" = Some (VObj pp) →
  passes_readiness_gate pp →
  (∀ k, k ∈ destructured_keys → rest_of props !! k = None)
  ∧ ∀ el,
      (MultiversalAppBootstrap env props).2 = Ok el →
      ∃ d i18nextInstance theme,
        delegated_props el = Some d
        ∧ i18nextLocize env (prop pp "lang") (prop pp "defaultLocales") = Ok i18nextInstance
        ∧ initCustomerTheme env (prop pp "customer") = Ok theme
        ∧ (∀ k v,
             rest_of props !! k = Some v →
             isBrowser env = false ∨ k ∉ browser_keys →
             d !! k = Some v)
        ∧ (rest_of props !! "i18nextInstance" = None →
           d !! "i18nextInstance" = Some i18nextInstance)
        ∧ (rest_of props !! "theme" = None → d !! "theme" = Some theme)
        ∧ d !! "Component" = Some (prop props "Component")
        ∧ d !! "err" = Some (prop props "err")
        ∧ d !! "router" = Some (prop props "router")
        ∧ (∀ k,
             rest_of props !! k = None →
             k ∉ named_keys →
             isBrowser env = false ∨ k ∉ browser_keys →
             d !! k = pp !! k)
        ∧ (isBrowser env = true →
           ∃ isInIframe iframeReferrer cookiesManager userSession,
             isRunningInIframe env = Ok isInIframe
             ∧ getIframeReferrer env = Ok iframeReferrer
             ∧ UniversalCookiesManager env = Ok cookiesManager
             ∧ getUserData env cookiesManager = Ok userSession
             ∧ d !! "isInIframe" = Some isInIframe
             ∧ d !! "iframeReferrer" = Some iframeReferrer
             ∧ d !! "cookiesManager" = Some cookiesManager
             ∧ d !! "userSession" = Some userSession).
Proof.
  intros Hpp%prop_lookup Hgate. split.
  { intros k Hk. rewrite lookup_rest_of. unfold destructured_keys in Hk.
    rewrite !elem_of_cons in Hk.
    destruct Hk as [->|[->|[->|[->|Hk]]]]; [done..|]. by apply elem_of_nil in Hk. }
  assert (Hlayers : ∀ i t,
    let d := merged props pp i t in
    (∀ k v, rest_of props !! k = Some v → d !! k = Some v)
    ∧ (rest_of props !! "i18nextInstance" = None → d !! "i18nextInstance" = Some i)
    ∧ (rest_of props !! "theme" = None → d !! "theme" = Some t)
    ∧ d !! "Component" = Some (prop props "Component")
    ∧ d !! "err" = Some (prop props "err")
    ∧ d !! "router" = Some (prop props "router")
    ∧ (∀ k, rest_of props !! k = None → k ∉ named_keys → d !! k = pp !! k)).
  { intros i t d. subst d. unfold merged.
    split; [intros k v Hk; by rewrite lookup_pageBootstrapProps, Hk|].
    split; [intros Hk; by rewrite lookup_pageBootstrapProps, Hk|].
    split; [intros Hk; by rewrite lookup_pageBootstrapProps, Hk|].
    split; [by rewrite lookup_pageBootstrapProps, lookup_rest_of|].
    split; [by rewrite lookup_pageBootstrapProps, lookup_rest_of|].
    split; [by rewrite lookup_pageBootstrapProps, lookup_rest_of|].
    intros k Hk Hn. rewrite lookup_pageBootstrapProps, Hk.
    unfold named_keys in Hn. rewrite !not_elem_of_cons in Hn.
    destruct Hn as (? & ? & ? & ? & ? & _).
    repeat case_decide; first [congruence | reflexivity]. }
  intros el.
  run_cases env props pp Hpp Hgate; cbn [snd]; try discriminate;
    intros [= <-]; cbn [delegated_props];
    match goal with
    | _ : i18nextLocize _ _ _ = Ok ?i, _ : initCustomerTheme _ _ = Ok ?t |- _ =>
        destruct (Hlayers i t) as (Hrest & Hi & Ht & HC & He & Hr & Hpage)
    end;
    do 3 eexists; (split; [reflexivity|]); (split; [reflexivity|]);
    (split; [reflexivity|]).
  - split. { intros k v Hk [|Hnb]; [discriminate|].
             rewrite lookup_browser_other by done. by apply Hrest. }
    rewrite !lookup_browser_other by solve_browser_key.
    do 5 (split; [assumption|]).
    split. { intros k Hk Hn [|Hnb]; [discriminate|].
             rewrite lookup_browser_other by done. by apply Hpage. }
    intros _. do 4 eexists. do 4 (split; [first [reflexivity | eassumption]|]).
    by rewrite !lookup_browserPageBootstrapProps.
  - split; [intros k v Hk _; by apply Hrest|].
    do 5 (split; [assumption|]).
    split; [intros k Hk Hn _; by apply Hpage|].
    discriminate.
Qed.

Lemma merge_order_witness :
  Sample.props_with_theme !! "pageProps" = Some (VObj Sample.pageProps_ready)
  ∧ passes_readiness_gate Sample.pageProps_ready
  ∧ ∃ d,
      (MultiversalAppBootstrap (Sample.env false) Sample.props_with_theme).2 =
        Ok (PageBootstrap d)
      ∧ d !! "theme" = Some (VStr "passthrough theme").
Proof.
  assert (H1 : Sample.props_with_theme !! "pageProps" = Some (VObj Sample.pageProps_ready))
    by reflexivity.
  assert (H2 : passes_readiness_gate Sample.pageProps_ready) by (left; reflexivity).
  split; [exact H1|]. split; [exact H2|].
  destruct (proj2 (merge_order (Sample.env false) Sample.props_with_theme
                     Sample.pageProps_ready H1 H2) _ eq_refl)
    as (d & i & t & Hd & _ & _ & Hrest & _).
  injection Hd as <-.
  eexists. split; [reflexivity|].
  apply Hrest; [reflexivity | left; reflexivity].
Defined.

(** ** Diagnostics (C6) *)

(** Refutes membership in a list written out in full. *)
Ltac absurd_elem H :=
  repeat (apply elem_of_cons in H as [H|H]; [discriminate H|]);
  by apply elem_of_nil in H.

(** Proves membership in a list written out in full. *)
Ltac find_elem :=
  repeat first [apply list_elem_of_here | apply list_elem_of_further].

(** C6 as the code has it.  Every invocation emits exactly one breadcrumb,
    whatever the readiness and the environment.  The dump of the props on
    [console.debug] is emitted in a browser, once, and never outside one.
    The [console.info] line is not held back outside a browser: whenever
    the gate can be read, exactly one such line is emitted, the ready
    message or the waiting message. *)
Theorem breadcrumb_and_console env props :
  count is_breadcrumb (MultiversalAppBootstrap env props).1 = 1
  ∧ (∀ label arg,
       console_debug label arg ∈ (MultiversalAppBootstrap env props).1 →
       isBrowser env = true)
  ∧ (isBrowser env = true →
     count is_console_debug (MultiversalAppBootstrap env props).1 = 1
     ∧ console_debug "MultiversalAppBootstrap.props" (VObj props)
         ∈ (MultiversalAppBootstrap env props).1)
  ∧ (∀ ready,
       readiness_gate (prop props "pageProps") = Ok ready →
       count is_console_info (MultiversalAppBootstrap env props).1 = 1
       ∧ console_info (if ready then ready_message else not_ready_message)
           ∈ (MultiversalAppBootstrap env props).1).
Proof.
  destruct (readiness_gate (prop props "pageProps")) as [[]|e] eqn:Hg.
  - destruct (gate_passes_object _ Hg) as [pp Hpp].
    assert (Hgate : passes_readiness_gate pp).
    { apply gate_passes_iff. by rewrite <- Hpp. }
    run_cases env props pp Hpp Hgate;
      unfold browser_calls, resolver_calls, prologue;
      try match goal with H : isBrowser env = _ |- _ => rewrite H end;
      try (destruct (isBrowser env) eqn:?);
      cbn [fst snd app];
      (split; [reflexivity|]);
      (split; [intros label arg Hin; first [reflexivity | absurd_elem Hin]|]);
      (split; [intros [=]; (split; [reflexivity|find_elem]) |]);
      intros ? [= <-]; (split; [reflexivity|find_elem]).
  - rewrite (run_not_ready _ _ Hg). unfold prologue.
    destruct (isBrowser env); cbn [fst snd app];
      (split; [reflexivity|]);
      (split; [intros label arg Hin; first [reflexivity | absurd_elem Hin]|]);
      (split; [intros [=]; (split; [reflexivity|find_elem]) |]);
      intros ? [= <-]; (split; [reflexivity|find_elem]).
  - rewrite (run_gate_throws _ _ _ Hg). unfold prologue.
    destruct (isBrowser env); cbn [fst snd app];
      (split; [reflexivity|]);
      (split; [intros label arg Hin; first [reflexivity | absurd_elem Hin]|]);
      (split; [intros [=]; (split; [reflexivity|find_elem]) |]);
      intros ? [=].
Qed.

Lemma breadcrumb_and_console_witness :
  readiness_gate (prop Sample.props_ready "pageProps") = Ok true
  ∧ count is_console_info (MultiversalAppBootstrap (Sample.env false) Sample.props_ready).1 = 1
  ∧ console_info ready_message
      ∈ (MultiversalAppBootstrap (Sample.env false) Sample.props_ready).1.
Proof.
  assert (H1 : readiness_gate (prop Sample.props_ready "pageProps") = Ok true)
    by reflexivity.
  split; [exact H1|].
  exact (proj2 (proj2 (proj2 (breadcrumb_and_console (Sample.env false) Sample.props_ready)))
           true H1).
Defined.

(** The claim C6 fails outside a browser: the console still receives a
    line there, whether the gate is open or closed. *)
Lemma breadcrumb_and_console_counterexample :
  isBrowser (Sample.env false) = false
  ∧ console_info ready_message
      ∈ (MultiversalAppBootstrap (Sample.env false) Sample.props_ready).1
  ∧ count is_console (MultiversalAppBootstrap (Sample.env false) Sample.props_ready).1 = 1
  ∧ console_info not_ready_message
      ∈ (MultiversalAppBootstrap (Sample.env false) Sample.props_waiting).1
  ∧ count is_console (MultiversalAppBootstrap (Sample.env false) Sample.props_waiting).1 = 1.
Proof.
  split; [reflexivity|].
  split; [vm_compute; find_elem|].
  split; [reflexivity|].
  split; [vm_compute; find_elem|].
  reflexivity.
Qed.

(** ** Failures (C7) *)

(** C7.  With the gate open, a failure of a collaborator call that the
    render reaches (the internationalization resolver, the theme resolver,
    and in a browser the iframe helpers, the construction of the cookies
    manager and the retrieval of the user session) is the outcome of the
    component, with the thrown value unchanged.  Nothing is caught and
    nothing else is raised: a failed render threw what one of its
    collaborators threw. *)
Theorem collaborator_failures_propagate env props pp :
  props !! "pageProps" = Some (VObj pp) →
  passes_readiness_gate pp →
  (∀ e,
     i18nextLocize env (prop pp "lang") (prop pp "defaultLocales") = Throw e →
     (MultiversalAppBootstrap env props).2 = Throw e)
  ∧ (∀ i18nextInstance e,
       i18nextLocize env (prop pp "lang") (prop pp "defaultLocales") = Ok i18nextInstance →
       initCustomerTheme env (prop pp "customer") = Throw e →
       (MultiversalAppBootstrap env props).2 = Throw e)
  ∧ (∀ i18nextInstance theme,
       i18nextLocize env (prop pp "lang") (prop pp "defaultLocales") = Ok i18nextInstance →
       initCustomerTheme env (prop pp "customer") = Ok theme →
       isBrowser env = true →
       (∀ e,
          isRunningInIframe env = Throw e →
          (MultiversalAppBootstrap env props).2 = Throw e)
       ∧ (∀ isInIframe e,
            isRunningInIframe env = Ok isInIframe →
            getIframeReferrer env = Throw e →
            (MultiversalAppBootstrap env props).2 = Throw e)
       ∧ (∀ isInIframe iframeReferrer e,
            isRunningInIframe env = Ok isInIframe →
            getIframeReferrer env = Ok iframeReferrer →
            UniversalCookiesManager env = Throw e →
            (MultiversalAppBootstrap env props).2 = Throw e)
       ∧ (∀ isInIframe iframeReferrer cookiesManager e,
            isRunningInIframe env = Ok isInIframe →
            getIframeReferrer env = Ok iframeReferrer →
            UniversalCookiesManager env = Ok cookiesManager →
            getUserData env cookiesManager = Throw e →
            (MultiversalAppBootstrap env props).2 = Throw e))
  ∧ (∀ e,
       (MultiversalAppBootstrap env props).2 = Throw e →
       thrown_by_collaborator env pp e).
Proof.
  intros Hpp%prop_lookup Hgate.
  split. { intros e Hi. by rewrite (run_i18n_throws env props pp Hpp Hgate e Hi). }
  split. { intros i e Hi Ht. by rewrite (run_theme_throws env props pp Hpp Hgate i Hi e Ht). }
  split.
  { intros i t Hi Ht Hb.
    split. { intros e Hf.
             by rewrite (run_isRunningInIframe_throws env props pp Hpp Hgate
                           i Hi t Ht Hb e Hf). }
    split. { intros f e Hf Hr.
             by rewrite (run_getIframeReferrer_throws env props pp Hpp Hgate
                           i Hi t Ht Hb f Hf e Hr). }
    split. { intros f r e Hf Hr Hc.
             by rewrite (run_UniversalCookiesManager_throws env props pp Hpp Hgate
                           i Hi t Ht Hb f Hf r Hr e Hc). }
    intros f r c e Hf Hr Hc Hu.
    by rewrite (run_getUserData_throws env props pp Hpp Hgate
                  i Hi t Ht Hb f Hf r Hr c Hc e Hu). }
  intros e. by apply throw_from_collaborator.
Qed.

Lemma collaborator_failures_propagate_witness :
  Sample.props_ready !! "pageProps" = Some (VObj Sample.pageProps_ready)
  ∧ passes_readiness_gate Sample.pageProps_ready
  ∧ initCustomerTheme (Sample.env_theme_fails true) (prop Sample.pageProps_ready "customer") =
      Throw (VStr "no theme")
  ∧ (MultiversalAppBootstrap (Sample.env_theme_fails true) Sample.props_ready).2 =
      Throw (VStr "no theme").
Proof.
  assert (H1 : Sample.props_ready !! "pageProps" = Some (VObj Sample.pageProps_ready))
    by reflexivity.
  assert (H2 : passes_readiness_gate Sample.pageProps_ready) by (left; reflexivity).
  split; [exact H1|]. split; [exact H2|]. split; [reflexivity|].
  apply (proj1 (proj2 (collaborator_failures_propagate (Sample.env_theme_fails true)
                         Sample.props_ready Sample.pageProps_ready H1 H2))
           (Sample.i18n_of (VStr "fr") (VObj ∅)));
    reflexivity.
Defined.

(** ** Determinism (C10) *)

Lemma prologue_same env1 env2 props :
  isBrowser env1 = isBrowser env2 → prologue env1 props = prologue env2 props.
Proof. unfold prologue. by intros ->. Qed.

Lemma resolver_calls_same env1 env2 props pp :
  isBrowser env1 = isBrowser env2 →
  resolver_calls env1 props pp = resolver_calls env2 props pp.
Proof. unfold resolver_calls. by intros ->%(prologue_same _ _ props). Qed.

Lemma browser_calls_same env1 env2 props pp cookiesManager :
  isBrowser env1 = isBrowser env2 →
  browser_calls env1 props pp cookiesManager = browser_calls env2 props pp cookiesManager.
Proof. unfold browser_calls. by intros ->%(resolver_calls_same _ _ props pp). Qed.

(** C10.  The render is a function of the props, the browser flag and the
    behaviour of the collaborators: two invocations on equal props, in
    environments with the same browser flag whose collaborators behave
    alike, make the same calls and end alike, so they select the same
    branch and delegate equal props. *)
Theorem deterministic env1 env2 props1 props2 :
  same_behaviour env1 env2 →
  props1 = props2 →
  MultiversalAppBootstrap env1 props1 = MultiversalAppBootstrap env2 props2.
Proof.
  intros Hsame <-. rename props1 into props.
  pose proof (same_isBrowser _ _ Hsame) as Hflag.
  destruct (readiness_gate (prop props "pageProps")) as [[]|e] eqn:Hg.
  - destruct (gate_passes_object _ Hg) as [pp Hpp].
    assert (Hgate : passes_readiness_gate pp).
    { apply gate_passes_iff. by rewrite <- Hpp. }
    clear Hflag.
    run_cases env1 props pp Hpp Hgate;
      rewrite ?(browser_calls_same env1 env2) by apply Hsame;
      rewrite ?(resolver_calls_same env1 env2) by apply Hsame;
      repeat match goal with
             | H : isBrowser env1 = _ |- _ =>
                 rewrite (same_isBrowser _ _ Hsame) in H
             | H : i18nextLocize env1 _ _ = _ |- _ =>
                 rewrite (same_i18nextLocize _ _ Hsame) in H
             | H : initCustomerTheme env1 _ = _ |- _ =>
                 rewrite (same_initCustomerTheme _ _ Hsame) in H
             | H : isRunningInIframe env1 = _ |- _ =>
                 rewrite (same_isRunningInIframe _ _ Hsame) in H
             | H : getIframeReferrer env1 = _ |- _ =>
                 rewrite (same_getIframeReferrer _ _ Hsame) in H
             | H : UniversalCookiesManager env1 = _ |- _ =>
                 rewrite (same_UniversalCookiesManager _ _ Hsame) in H
             | H : getUserData env1 _ = _ |- _ =>
                 rewrite (same_getUserData _ _ Hsame) in H
             end;
      symmetry;
      first [ eapply run_browser; eassumption
            | eapply run_getUserData_throws; eassumption
            | eapply run_UniversalCookiesManager_throws; eassumption
            | eapply run_getIframeReferrer_throws; eassumption
            | eapply run_isRunningInIframe_throws; eassumption
            | eapply run_universal; eassumption
            | eapply run_theme_throws; eassumption
            | eapply run_i18n_throws; eassumption ].
  - rewrite !run_not_ready by done. by rewrite (prologue_same env1 env2).
  - rewrite !(run_gate_throws _ _ e) by done. by rewrite (prologue_same env1 env2).
Qed.

Lemma deterministic_witness :
  same_behaviour (Sample.env true) (Sample.env_alike true)
  ∧ MultiversalAppBootstrap (Sample.env true) Sample.props_ready =
      MultiversalAppBootstrap (Sample.env_alike true) Sample.props_ready.
Proof.
  assert (H1 : same_behaviour (Sample.env true) (Sample.env_alike true)).
  { split; try reflexivity.
    - intros customer. by destruct customer.
    - intros cookiesManager. by destruct cookiesManager. }
  split; [exact H1|].
  exact (deterministic (Sample.env true) (Sample.env_alike true)
           Sample.props_ready Sample.props_ready H1 eq_refl).
Defined.

(** ** Beyond the claims: edge cases of the gate *)

(** Finds an event in a trace given as appended, written-out lists. *)
Ltac in_trace :=
  first [ apply list_elem_of_here
        | apply list_elem_of_further; in_trace
        | apply elem_of_app; first [ right; in_trace | left; in_trace ] ].

(** X1.  When the incoming props have no [pageProps], or have it bound to
    [undefined] or [null], reading the readiness flag throws: the component
    ends in a [TypeError] after the breadcrumb (and, in a browser, the props
    dump) has been emitted; it logs no [console.info] line and calls no
    collaborator. *)
Theorem missing_pageProps_throws env props :
  props !! "pageProps" = None
  ∨ props !! "pageProps" = Some VUndef
  ∨ props !! "pageProps" = Some VNull →
  (MultiversalAppBootstrap env props).2 = Throw TypeError
  ∧ count is_breadcrumb (MultiversalAppBootstrap env props).1 = 1
  ∧ count is_console_info (MultiversalAppBootstrap env props).1 = 0
  ∧ collaborator_calls (MultiversalAppBootstrap env props).1 = [].
Proof.
  intros Hmissing.
  assert (Hg : readiness_gate (prop props "pageProps") = Throw TypeError).
  { unfold prop. by destruct Hmissing as [->|[->| ->]]. }
  rewrite (run_gate_throws _ _ _ Hg). unfold prologue.
  by destruct (isBrowser env).
Qed.

Lemma missing_pageProps_throws_witness :
  Edge.props_without_pageProps !! "pageProps" = None
  ∧ (MultiversalAppBootstrap (Sample.env true) Edge.props_without_pageProps).2 =
      Throw TypeError.
Proof.
  assert (H1 : Edge.props_without_pageProps !! "pageProps" = None) by reflexivity.
  split; [exact H1|].
  exact (proj1 (missing_pageProps_throws (Sample.env true) Edge.props_without_pageProps
                  (or_introl H1))).
Defined.

(** X2.  A status code of 404 opens the gate whatever the readiness flag
    is, also when it is absent: the ready line is logged, the outcome is
    never [null], and the internationalization resolver is called.  Nothing
    defaults the page props on the way: a [lang], [defaultLocales] or
    [customer] that the page props lack reaches its resolver as
    [undefined]. *)
Theorem status_404_renders env props pp :
  props !! "pageProps" = Some (VObj pp) →
  pp !! "statusCode" = Some (VNum 404) →
  (MultiversalAppBootstrap env props).2 ≠ Ok null
  ∧ console_info ready_message ∈ (MultiversalAppBootstrap env props).1
  ∧ call_i18nextLocize (prop pp "lang") (prop pp "defaultLocales")
      ∈ (MultiversalAppBootstrap env props).1
  ∧ (pp !! "lang" = None →
     pp !! "defaultLocales" = None →
     call_i18nextLocize VUndef VUndef ∈ (MultiversalAppBootstrap env props).1)
  ∧ (pp !! "customer" = None →
     ∀ i18nextInstance,
       i18nextLocize env (prop pp "lang") (prop pp "defaultLocales") = Ok i18nextInstance →
       call_initCustomerTheme VUndef ∈ (MultiversalAppBootstrap env props).1).
Proof.
  intros Hpp%prop_lookup Hstatus%prop_lookup.
  assert (Hgate : passes_readiness_gate pp) by (by right).
  assert (Hcalls :
    (MultiversalAppBootstrap env props).2 ≠ Ok null
    ∧ console_info ready_message ∈ (MultiversalAppBootstrap env props).1
    ∧ call_i18nextLocize (prop pp "lang") (prop pp "defaultLocales")
        ∈ (MultiversalAppBootstrap env props).1
    ∧ ∀ i18nextInstance,
        i18nextLocize env (prop pp "lang") (prop pp "defaultLocales") = Ok i18nextInstance →
        call_initCustomerTheme (prop pp "customer") ∈ (MultiversalAppBootstrap env props).1).
  { run_cases env props pp Hpp Hgate; cbn [fst snd];
      unfold browser_calls, resolver_calls;
      (split; [discriminate|]); (split; [in_trace|]); (split; [in_trace|]);
      intros i Hi; first [discriminate Hi | in_trace]. }
  destruct Hcalls as (Hnull & Hready & Hi18n & Htheme).
  split; [exact Hnull|]. split; [exact Hready|]. split; [exact Hi18n|].
  split.
  - intros Hlang Hlocales. unfold prop in Hi18n.
    by rewrite Hlang, Hlocales in Hi18n.
  - intros Hcustomer i Hi. specialize (Htheme i Hi). unfold prop in Htheme at 1.
    by rewrite Hcustomer in Htheme.
Qed.

Lemma status_404_renders_witness :
  Edge.props_404 !! "pageProps" = Some (VObj Edge.pageProps_404)
  ∧ Edge.pageProps_404 !! "statusCode" = Some (VNum 404)
  ∧ call_i18nextLocize VUndef VUndef
      ∈ (MultiversalAppBootstrap (Sample.env false) Edge.props_404).1.
Proof.
  assert (H1 : Edge.props_404 !! "pageProps" = Some (VObj Edge.pageProps_404))
    by reflexivity.
  assert (H2 : Edge.pageProps_404 !! "statusCode" = Some (VNum 404)) by reflexivity.
  split; [exact H1|]. split; [exact H2|].
  apply (proj1 (proj2 (proj2 (proj2 (status_404_renders (Sample.env false) Edge.props_404
                                        Edge.pageProps_404 H1 H2)))));
    reflexivity.
Defined.

(** ** Beyond the claims: the order of the calls *)

(** X3.  With the gate open, the collaborator calls of a render are an
    initial segment of one fixed sequence: the internationalization
    resolver, the theme resolver, the iframe flag, the iframe referrer, the
    construction of the cookies manager, the retrieval of the session from
    the manager that the construction returned.  When the construction
    throws, the segment lies within the first five calls, so no session is
    retrieved at all.  No call is repeated, none is made before an earlier
    one of the sequence, and outside a browser the segment stops after the
    two resolvers at the latest. *)
Theorem calls_follow_source_order env props pp :
  props !! "pageProps" = Some (VObj pp) →
  passes_readiness_gate pp →
  match UniversalCookiesManager env with
  | Ok cookiesManager =>
      collaborator_calls (MultiversalAppBootstrap env props).1
        `prefix_of` collaborator_sequence pp cookiesManager
  | Throw _ =>
      collaborator_calls (MultiversalAppBootstrap env props).1
        `prefix_of` calls_up_to_construction pp
  end
  ∧ (isBrowser env = false →
     (length (collaborator_calls (MultiversalAppBootstrap env props).1) ≤ 2)%nat).
Proof.
  intros Hpp%prop_lookup Hgate.
  run_cases env props pp Hpp Hgate; cbn [fst snd];
    unfold browser_calls, resolver_calls, prologue, collaborator_calls,
      collaborator_sequence, calls_up_to_construction;
    try match goal with H : isBrowser env = _ |- _ => rewrite H end;
    try (destruct (isBrowser env) eqn:?);
    cbn [app List.filter is_collaborator_call is_breadcrumb is_console negb orb length];
    (split; [| first [discriminate | intros _; repeat constructor]]);
    try (destruct (UniversalCookiesManager env));
    eexists; reflexivity.
Qed.

Lemma calls_follow_source_order_witness :
  Sample.props_ready !! "pageProps" = Some (VObj Sample.pageProps_ready)
  ∧ passes_readiness_gate Sample.pageProps_ready
  ∧ collaborator_calls (MultiversalAppBootstrap (Sample.env true) Sample.props_ready).1
      `prefix_of` collaborator_sequence Sample.pageProps_ready (VFun "cookiesManager").
Proof.
  assert (H1 : Sample.props_ready !! "pageProps" = Some (VObj Sample.pageProps_ready))
    by reflexivity.
  assert (H2 : passes_readiness_gate Sample.pageProps_ready) by (left; reflexivity).
  split; [exact H1|]. split; [exact H2|].
  exact (proj1 (calls_follow_source_order (Sample.env true) Sample.props_ready
                  Sample.pageProps_ready H1 H2)).
Defined.

(** X4.  A failure ends the render on the spot.  When [pageProps] is an
    object and the component throws [e], the last recorded call is a
    collaborator call that threw [e], and every call recorded before it
    returned; when the component ends normally, every recorded call
    returned.  So a collaborator is never called after another one has
    failed. *)
Theorem failure_is_last_call env props pp :
  props !! "pageProps" = Some (VObj pp) →
  match (MultiversalAppBootstrap env props).2 with
  | Ok _ => Forall (returned env) (MultiversalAppBootstrap env props).1
  | Throw e =>
      ∃ before failing,
        (MultiversalAppBootstrap env props).1 = before ++ [failing]
        ∧ Forall (returned env) before
        ∧ result_of env failing = Some (Throw e)
  end.
Proof.
  intros Hpp%prop_lookup.
  assert (Hprologue : Forall (returned env) (prologue env props)).
  { unfold prologue. destruct (isBrowser env); repeat constructor. }
  destruct (readiness_gate (prop props "pageProps")) as [[]|e] eqn:Hg.
  - assert (Hgate : passes_readiness_gate pp).
    { apply gate_passes_iff. by rewrite <- Hpp. }
    assert (Hresolver : Forall (returned env) [console_info ready_message]).
    { repeat constructor. }
    run_cases env props pp Hpp Hgate; cbn [fst snd];
      unfold browser_calls, resolver_calls;
      try match goal with
          | |- ∃ before failing, ?t ++ [?a] = _ ∧ _ => exists t, a
          | |- ∃ before failing, ?t ++ [?a; ?b] = _ ∧ _ => exists (t ++ [a]), b
          | |- ∃ before failing, ?t ++ [?a; ?b; ?c] = _ ∧ _ => exists (t ++ [a; b]), c
          | |- ∃ before failing, ?t ++ [?a; ?b; ?c; ?d] = _ ∧ _ =>
              exists (t ++ [a; b; c]), d
          | |- ∃ before failing, ?t ++ [?a; ?b; ?c; ?d; ?f] = _ ∧ _ =>
              exists (t ++ [a; b; c; d]), f
          end;
      try (split; [by rewrite <- ?app_assoc|]; split; [|cbn [result_of]; f_equal; assumption]);
      repeat (apply Forall_app; split); try assumption;
      repeat (constructor;
              [unfold returned; cbn [result_of];
               repeat match goal with H : _ = Ok _ |- _ => rewrite H end;
               exact I|]);
      constructor.
  - rewrite (run_not_ready _ _ Hg). cbn [fst snd].
    apply Forall_app. split; [assumption|repeat constructor].
  - rewrite Hpp in Hg. by rewrite readiness_gate_object in Hg.
Qed.

Lemma failure_is_last_call_witness :
  Sample.props_ready !! "pageProps" = Some (VObj Sample.pageProps_ready)
  ∧ ∃ before failing,
      (MultiversalAppBootstrap Edge.env_no_cookies Sample.props_ready).1 = before ++ [failing]
      ∧ Forall (returned Edge.env_no_cookies) before
      ∧ result_of Edge.env_no_cookies failing = Some (Throw (VStr "cookies disabled")).
Proof.
  assert (H1 : Sample.props_ready !! "pageProps" = Some (VObj Sample.pageProps_ready))
    by reflexivity.
  split; [exact H1|].
  pose proof (failure_is_last_call Edge.env_no_cookies Sample.props_ready
                Sample.pageProps_ready H1) as Hlast.
  assert (Hout : (MultiversalAppBootstrap Edge.env_no_cookies Sample.props_ready).2 =
                 Throw (VStr "cookies disabled")) by reflexivity.
  rewrite Hout in Hlast. exact Hlast.
Defined.

(** ** Beyond the claims: the keys of the delegated props *)

Lemma dom_rest_of props :
  dom (rest_of props) = dom props ∖ key_set destructured_keys.
Proof.
  unfold rest_of, key_set, destructured_keys. rewrite !dom_delete_L.
  cbn [list_to_set foldr]. set_unfold. intros k. tauto.
Qed.

Lemma dom_merged props pp i18nextInstance theme :
  dom (merged props pp i18nextInstance theme) =
    dom pp ∪ key_set named_keys ∪ (dom props ∖ key_set destructured_keys).
Proof.
  unfold merged, pageBootstrapProps, object_literal. cbn [fold_left add_part own_props].
  rewrite dom_union_L, !dom_insert_L, dom_union_L, dom_empty_L, dom_rest_of.
  unfold key_set, named_keys. cbn [list_to_set foldr]. set_unfold. intros k. tauto.
Qed.

(** X5.  With the gate open, the props handed to the delegate have exactly
    these keys: the keys of [pageProps], the five named keys [Component],
    [err], [i18nextInstance], [router], [theme] (present even when the
    incoming props lack them), the incoming keys other than the four
    destructured ones, and in the browser branch the four browser keys.  No
    other key is ever delegated. *)
Theorem delegated_key_set env props pp :
  props !! "pageProps" = Some (VObj pp) →
  passes_readiness_gate pp →
  ∀ el,
    (MultiversalAppBootstrap env props).2 = Ok el →
    ∃ d,
      delegated_props el = Some d
      ∧ dom d =
          dom pp ∪ key_set named_keys ∪ (dom props ∖ key_set destructured_keys)
          ∪ (if isBrowser env then key_set browser_keys else ∅).
Proof.
  intros Hpp%prop_lookup Hgate el.
  run_cases env props pp Hpp Hgate; cbn [snd]; try discriminate;
    intros [= <-]; eexists; (split; [reflexivity|]).
  - unfold browserPageBootstrapProps, object_literal. cbn [fold_left add_part].
    rewrite !dom_insert_L, dom_union_L, dom_empty_L, dom_merged.
    unfold key_set, browser_keys. cbn [list_to_set foldr]. set_unfold. intros k. tauto.
  - rewrite dom_merged. set_unfold. intros k. tauto.
Qed.

Lemma delegated_key_set_witness :
  Edge.props_404 !! "pageProps" = Some (VObj Edge.pageProps_404)
  ∧ passes_readiness_gate Edge.pageProps_404
  ∧ ∃ d,
      (MultiversalAppBootstrap (Sample.env false) Edge.props_404).2 = Ok (PageBootstrap d)
      ∧ dom d = {[ "statusCode"; "Component"; "err"; "i18nextInstance"; "router"; "theme" ]}.
Proof.
  assert (H1 : Edge.props_404 !! "pageProps" = Some (VObj Edge.pageProps_404))
    by reflexivity.
  assert (H2 : passes_readiness_gate Edge.pageProps_404) by (right; reflexivity).
  split; [exact H1|]. split; [exact H2|].
  destruct (delegated_key_set (Sample.env false) Edge.props_404 Edge.pageProps_404
              H1 H2 _ eq_refl) as (d & Hd & Hdom).
  injection Hd as <-.
  eexists. split; [reflexivity|].
  rewrite Hdom. by vm_compute.
Defined.

(** X6.  The browser render extends the universal one.  Take one props
    object rendered on a server and in a browser, with resolvers that behave
    alike on both sides: the props handed to [BrowserPageBootstrap] hold the
    four browser keys, and on every other key they agree with the props
    handed to [PageBootstrap]. *)
Theorem browser_props_extend_universal env_server env_browser props d_server d_browser :
  isBrowser env_server = false →
  isBrowser env_browser = true →
  (∀ lang defaultLocales,
     i18nextLocize env_server lang defaultLocales =
     i18nextLocize env_browser lang defaultLocales) →
  (∀ customer, initCustomerTheme env_server customer = initCustomerTheme env_browser customer) →
  (MultiversalAppBootstrap env_server props).2 = Ok (PageBootstrap d_server) →
  (MultiversalAppBootstrap env_browser props).2 = Ok (BrowserPageBootstrap d_browser) →
  (∀ k, k ∉ browser_keys → d_browser !! k = d_server !! k)
  ∧ (∀ k, k ∈ browser_keys → is_Some (d_browser !! k)).
Proof.
  intros Hserver Hbrowser Hi Ht Hout_server Hout_browser.
  destruct (delegate_gate_open _ _ _ _ Hout_server eq_refl) as (pp & Hpp & Hgate).
  revert Hout_server Hout_browser.
  run_cases env_server props pp Hpp Hgate; cbn [snd]; try done.
  intros [= <-].
  run_cases env_browser props pp Hpp Hgate; cbn [snd]; try done.
  intros [= <-].
  match goal with
  | H1 : i18nextLocize env_server _ _ = Ok ?a, H2 : i18nextLocize env_browser _ _ = Ok ?b,
    H3 : initCustomerTheme env_server _ = Ok ?c, H4 : initCustomerTheme env_browser _ = Ok ?d
    |- _ =>
      assert (b = a) as -> by (rewrite Hi in H1; congruence);
      assert (d = c) as -> by (rewrite Ht in H3; congruence)
  end.
  split.
  - intros k Hk. by rewrite lookup_browser_other.
  - intros k Hk. rewrite lookup_browserPageBootstrapProps.
    unfold browser_keys in Hk. rewrite !elem_of_cons in Hk.
    destruct Hk as [->|[->|[->|[->|Hk]]]]; [by eexists..|].
    by apply elem_of_nil in Hk.
Qed.

Lemma browser_props_extend_universal_witness :
  ∃ d_server d_browser,
    (MultiversalAppBootstrap (Sample.env false) Sample.props_ready).2 =
      Ok (PageBootstrap d_server)
    ∧ (MultiversalAppBootstrap (Sample.env true) Sample.props_ready).2 =
        Ok (BrowserPageBootstrap d_browser)
    ∧ d_browser !! "theme" = d_server !! "theme".
Proof.
  do 2 eexists. split; [reflexivity|]. split; [reflexivity|].
  apply (proj1 (browser_props_extend_universal (Sample.env false) (Sample.env true)
                  Sample.props_ready _ _ eq_refl eq_refl (λ _ _, eq_refl) (λ _, eq_refl)
                  eq_refl eq_refl)).
  solve_browser_key.
Defined.

(** ** Beyond the claims: what the log tells *)

(** X7.  The [console.info] line tells the outcome.  The waiting message is
    logged exactly when the component returns [null], and the ready message
    exactly when the gate is open, whether or not the render then
    succeeds. *)
Theorem log_line_tells_outcome env props :
  (console_info not_ready_message ∈ (MultiversalAppBootstrap env props).1
   ↔ (MultiversalAppBootstrap env props).2 = Ok null)
  ∧ (console_info ready_message ∈ (MultiversalAppBootstrap env props).1
     ↔ readiness_gate (prop props "pageProps") = Ok true).
Proof.
  destruct (readiness_gate (prop props "pageProps")) as [[]|e] eqn:Hg.
  - destruct (gate_passes_object _ Hg) as [pp Hpp].
    assert (Hgate : passes_readiness_gate pp).
    { apply gate_passes_iff. by rewrite <- Hpp. }
    run_cases env props pp Hpp Hgate;
      unfold browser_calls, resolver_calls, prologue, ready_message, not_ready_message;
      try match goal with H : isBrowser env = _ |- _ => rewrite H end;
      try (destruct (isBrowser env) eqn:?);
      cbn [fst snd app];
      (split; split; intros Hin;
       first [ reflexivity | discriminate Hin | absurd_elem Hin | find_elem ]).
  - rewrite (run_not_ready _ _ Hg).
    unfold prologue, ready_message, not_ready_message.
    destruct (isBrowser env); cbn [fst snd app];
      (split; split; intros Hin;
       first [ reflexivity | discriminate Hin | absurd_elem Hin | find_elem ]).
  - rewrite (run_gate_throws _ _ _ Hg).
    unfold prologue, ready_message, not_ready_message.
    destruct (isBrowser env); cbn [fst snd app];
      (split; split; intros Hin;
       first [ reflexivity | discriminate Hin | absurd_elem Hin | find_elem ]).
Qed.

Lemma log_line_tells_outcome_witness :
  console_info not_ready_message
    ∈ (MultiversalAppBootstrap (Sample.env true) Sample.props_waiting).1
  ∧ (MultiversalAppBootstrap (Sample.env true) Sample.props_waiting).2 = Ok null.
Proof.
  assert (H1 : console_info not_ready_message
                 ∈ (MultiversalAppBootstrap (Sample.env true) Sample.props_waiting).1)
    by (vm_compute; find_elem).
  split; [exact H1|].
  exact (proj1 (proj1 (log_line_tells_outcome (Sample.env true) Sample.props_waiting)) H1).
Defined.
